(** * genta_api.GentaAPI: request building and response pass-through

    A shallow embedding of [src/genta_api/api.py].  The class [GentaAPI]
    holds a token and offers two methods, [ChatCompletion] and
    [TextCompletion].  Each binds its keyword arguments, builds a
    JSON-serialisable dictionary, hands it to [requests.post] and returns
    [(response.json(), response.status_code)].

    Python is dynamically typed, so arguments are modelled as values of a
    small universe [pyval] rather than by their annotations (the default of
    [watermark], annotated [Optional[str]], is the boolean [False]).  The
    HTTP library is the environment: a transport that is asked once per
    [requests.post] and whose every invocation is recorded. *)

From Stdlib Require Import String Ascii List ZArith Bool Lia.
From Stdlib Require Import Floats.SpecFloat.
Import ListNotations.
Open Scope string_scope.
Open Scope list_scope.

(** ** Python values

    The values [json.dumps] encodes: [None], booleans, integers, floats,
    strings, lists, tuples and dicts with string keys.  A [float] is the IEEE
    binary64 number itself; the code never computes on one.  A [dict] keeps
    its insertion order, which is the order [json.dumps] writes. *)

#[local] Set Warnings "-register-all".
Inductive pyval : Type :=
| VNone
| VBool (b : bool)
| VInt (n : Z)
| VFloat (f : spec_float)
| VStr (s : string)
| VList (l : list pyval)
| VTuple (l : list pyval)
| VDict (d : list (string * pyval)).

(** The three float literals of the signatures, as binary64 values
    (mantissa and exponent of the nearest double). *)
Definition float_1_03 : spec_float := S754_finite false 4638707616191611 (-52).
Definition float_0_7 : spec_float := S754_finite false 6305039478318694 (-53).
Definition float_0_95 : spec_float := S754_finite false 8556839292003942 (-53).

Inductive exn : Type :=
| TypeError
| KeyError (key : string)
| ValueError (msg : string)
| RequestException (detail : string)
| JSONDecodeError.

Inductive result (A : Type) : Type :=
| Ok (a : A)
| Raise (e : exn).
Arguments Ok {A} a.
Arguments Raise {A} e.

(** ** Dictionaries *)

Fixpoint dict_get (k : string) (d : list (string * pyval)) : option pyval :=
  match d with
  | [] => None
  | (k', v) :: rest => if String.eqb k k' then Some v else dict_get k rest
  end.

Fixpoint dict_remove (k : string) (d : list (string * pyval))
  : list (string * pyval) :=
  match d with
  | [] => []
  | (k', v) :: rest =>
      if String.eqb k k' then dict_remove k rest else (k', v) :: dict_remove k rest
  end.

Definition dict_keys (d : list (string * pyval)) : list string := map fst d.

(** [v[k]] for a field of a value expected to be a dict ([None] otherwise). *)
Definition field (k : string) (v : pyval) : option pyval :=
  match v with
  | VDict d => dict_get k d
  | _ => None
  end.

(** ** The Python operations the methods use *)

(** [v[k]] where [k] is a [str]: only a dict can be subscripted by a string.
    A list (or tuple) raises "list indices must be integers or slices, not
    str", a string "string indices must be integers", the other values are
    not subscriptable; all three are [TypeError]. *)
Definition getitem_str (v : pyval) (k : string) : result pyval :=
  match v with
  | VDict d =>
      match dict_get k d with
      | Some x => Ok x
      | None => Raise (KeyError k)
      end
  | _ => Raise TypeError
  end.

(** [x in [s1, ..., sn]] for string literals [si]: membership compares with
    [==], and only a [str] is equal to a [str]. *)
Definition in_strs (x : pyval) (l : list string) : bool :=
  match x with
  | VStr s => existsb (String.eqb s) l
  | _ => false
  end.

(** The items [for i in v] runs through: the elements of a list or tuple, the
    keys of a dict, the characters of a string; the other values are not
    iterable. *)
Definition py_iter (v : pyval) : result (list pyval) :=
  match v with
  | VList l => Ok l
  | VTuple l => Ok l
  | VDict d => Ok (map (fun kv => VStr (fst kv)) d)
  | VStr s => Ok (map (fun c => VStr (String c EmptyString)) (list_ascii_of_string s))
  | _ => Raise TypeError
  end.

(** ** The world: the client object, the functions' default objects and the
    transport's record *)

Record request : Type := {
  req_url : string;
  req_json : pyval;
  req_headers : list (string * string);
}.

(** What the remote end answered: [resp_json] is the decoded body, [None]
    when the body is not JSON (then [response.json()] raises). *)
Record response : Type := {
  resp_json : option pyval;
  status_code : Z;
}.

Inductive post_outcome : Type :=
| Responded (r : response)
| Failed (e : exn).

(** [self_token] is the attribute [self.token].  Each method's [stop=[]]
    default is ONE list object, created when the [def] is executed and bound
    again at every call that omits [stop]; its contents live here.  [posted]
    records every invocation of [requests.post], oldest first. *)
Record world : Type := {
  self_token : pyval;
  ChatCompletion_stop_default : list pyval;
  TextCompletion_stop_default : list pyval;
  posted : list request;
}.

Definition record_post (rq : request) (w : world) : world :=
  {| self_token := self_token w;
     ChatCompletion_stop_default := ChatCompletion_stop_default w;
     TextCompletion_stop_default := TextCompletion_stop_default w;
     posted := posted w ++ [rq] |}.

(** The remote service, which may answer differently as requests accumulate. *)
Definition transport : Type := list request -> request -> post_outcome.

(** ** A state-and-exception monad *)

Definition M (A : Type) : Type := world -> result A * world.

Definition ret {A} (a : A) : M A := fun w => (Ok a, w).
Definition raise {A} (e : exn) : M A := fun w => (Raise e, w).
Definition bind {A B} (m : M A) (k : A -> M B) : M B :=
  fun w =>
    match m w with
    | (Ok a, w') => k a w'
    | (Raise e, w') => (Raise e, w')
    end.
Definition get : M world := fun w => (Ok w, w).
Definition lift {A} (r : result A) : M A := fun w => (r, w).

Declare Scope py_scope.
Delimit Scope py_scope with py.
Notation "x <- m ;; k" := (bind m (fun x => k))
  (at level 61, m at next level, right associativity) : py_scope.
Notation "m ;;; k" := (bind m (fun _ => k))
  (at level 61, right associativity) : py_scope.
Open Scope py_scope.

Fixpoint for_each {A} (items : list A) (body : A -> M unit) : M unit :=
  match items with
  | [] => ret tt
  | i :: rest => body i ;;; for_each rest body
  end.

(** [for i in v: body] *)
Definition for_in (v : pyval) (body : pyval -> M unit) : M unit :=
  items <- lift (py_iter v) ;; for_each items body.

(** ** Keyword arguments

    The sixteen generation parameters and the model name.  [kwargs (option
    pyval)] is what a caller passes ([None]: the argument is omitted);
    [kwargs pyval] is what the parameters are bound to inside the method. *)

Record kwargs (T : Type) : Type := {
  model_name : T;
  best_of : T;
  decoder_input_details : T;
  details : T;
  do_sample : T;
  max_new_tokens : T;
  repetition_penalty : T;
  return_full_text : T;
  seed : T;
  stop : T;
  temperature : T;
  top_k : T;
  top_n_tokens : T;
  top_p : T;
  truncate : T;
  typical_p : T;
  watermark : T;
}.
Arguments model_name {T} k.
Arguments best_of {T} k.
Arguments decoder_input_details {T} k.
Arguments details {T} k.
Arguments do_sample {T} k.
Arguments max_new_tokens {T} k.
Arguments repetition_penalty {T} k.
Arguments return_full_text {T} k.
Arguments seed {T} k.
Arguments stop {T} k.
Arguments temperature {T} k.
Arguments top_k {T} k.
Arguments top_n_tokens {T} k.
Arguments top_p {T} k.
Arguments truncate {T} k.
Arguments typical_p {T} k.
Arguments watermark {T} k.

Definition call_args : Type := kwargs (option pyval).

(** A parameter is bound to the caller's value, or to its default. *)
Definition arg (passed : option pyval) (default : pyval) : pyval :=
  match passed with
  | Some v => v
  | None => default
  end.

(** The call that passes nothing but the positional argument. *)
Definition no_kwargs : call_args :=
  {| model_name := None; best_of := None; decoder_input_details := None;
     details := None; do_sample := None; max_new_tokens := None;
     repetition_penalty := None; return_full_text := None; seed := None;
     stop := None; temperature := None; top_k := None; top_n_tokens := None;
     top_p := None; truncate := None; typical_p := None; watermark := None |}.

(** The call that passes every keyword argument. *)
Definition all_kwargs (v : kwargs pyval) : call_args :=
  {| model_name := Some (model_name v); best_of := Some (best_of v);
     decoder_input_details := Some (decoder_input_details v);
     details := Some (details v); do_sample := Some (do_sample v);
     max_new_tokens := Some (max_new_tokens v);
     repetition_penalty := Some (repetition_penalty v);
     return_full_text := Some (return_full_text v); seed := Some (seed v);
     stop := Some (stop v); temperature := Some (temperature v);
     top_k := Some (top_k v); top_n_tokens := Some (top_n_tokens v);
     top_p := Some (top_p v); truncate := Some (truncate v);
     typical_p := Some (typical_p v); watermark := Some (watermark v) |}.

Definition with_model_name (m : option pyval) (a : call_args) : call_args :=
  {| model_name := m; best_of := best_of a;
     decoder_input_details := decoder_input_details a;
     details := details a; do_sample := do_sample a;
     max_new_tokens := max_new_tokens a;
     repetition_penalty := repetition_penalty a;
     return_full_text := return_full_text a; seed := seed a;
     stop := stop a; temperature := temperature a;
     top_k := top_k a; top_n_tokens := top_n_tokens a;
     top_p := top_p a; truncate := truncate a;
     typical_p := typical_p a; watermark := watermark a |}.

(** Python's binding of keyword parameters: the caller's value where one is
    passed, the signature's default otherwise. *)
Definition resolve (a : call_args) (d : kwargs pyval) : kwargs pyval :=
  {| model_name := arg (model_name a) (model_name d);
     best_of := arg (best_of a) (best_of d);
     decoder_input_details := arg (decoder_input_details a) (decoder_input_details d);
     details := arg (details a) (details d);
     do_sample := arg (do_sample a) (do_sample d);
     max_new_tokens := arg (max_new_tokens a) (max_new_tokens d);
     repetition_penalty := arg (repetition_penalty a) (repetition_penalty d);
     return_full_text := arg (return_full_text a) (return_full_text d);
     seed := arg (seed a) (seed d);
     stop := arg (stop a) (stop d);
     temperature := arg (temperature a) (temperature d);
     top_k := arg (top_k a) (top_k d);
     top_n_tokens := arg (top_n_tokens a) (top_n_tokens d);
     top_p := arg (top_p a) (top_p d);
     truncate := arg (truncate a) (truncate d);
     typical_p := arg (typical_p a) (typical_p d);
     watermark := arg (watermark a) (watermark d) |}.

(** ** The class *)

Definition CHAT_URL : string := "https://api.genta.tech/chat/".
Definition TEXT_URL : string := "https://api.genta.tech/text/".

(** The world after the module is loaded (each [def] evaluates its [stop=[]]
    default once) and [GentaAPI(token)] has run [__init__]. *)
Definition GentaAPI_init (token : pyval) : world :=
  {| self_token := token;
     ChatCompletion_stop_default := [];
     TextCompletion_stop_default := [];
     posted := [] |}.

(** The [ValueError] message of [ChatCompletion]. *)
Definition role_error : string :=
  "chat_history must be list of dict with role key: user, assistant, system".

(** The nested ["parameters"] dictionary of [ChatCompletion]'s [data]. *)
Definition ChatCompletion_parameters (p : kwargs pyval) : pyval :=
  VDict [
    ("best_of", best_of p);
    ("decoder_input_details", decoder_input_details p);
    ("details", details p);
    ("do_sample", do_sample p);
    ("max_new_tokens", max_new_tokens p);
    ("repetition_penalty", repetition_penalty p);
    ("return_full_text", return_full_text p);
    ("seed", seed p);
    ("stop", stop p);
    ("temperature", temperature p);
    ("top_k", top_k p);
    ("top_n_tokens", top_n_tokens p);
    ("top_p", top_p p);
    ("truncate", truncate p);
    ("typical_p", typical_p p);
    ("watermark", watermark p)
  ].

(** [data] of [ChatCompletion]. *)
Definition ChatCompletion_data (token chat_history : pyval) (p : kwargs pyval)
  : pyval :=
  VDict [
    ("token", token);
    ("inputs", chat_history);
    ("model_name", model_name p);
    ("parameters", ChatCompletion_parameters p)
  ].

(** The nested ["parameters"] dictionary of [TextCompletion]'s [data]. *)
Definition TextCompletion_parameters (p : kwargs pyval) : pyval :=
  VDict [
    ("best_of", best_of p);
    ("decoder_input_details", decoder_input_details p);
    ("details", details p);
    ("do_sample", do_sample p);
    ("max_new_tokens", max_new_tokens p);
    ("repetition_penalty", repetition_penalty p);
    ("return_full_text", return_full_text p);
    ("seed", seed p);
    ("stop", stop p);
    ("temperature", temperature p);
    ("top_k", top_k p);
    ("top_n_tokens", top_n_tokens p);
    ("top_p", top_p p);
    ("truncate", truncate p);
    ("typical_p", typical_p p);
    ("watermark", watermark p)
  ].

(** [data] of [TextCompletion]. *)
Definition TextCompletion_data (token text : pyval) (p : kwargs pyval) : pyval :=
  VDict [
    ("token", token);
    ("inputs", text);
    ("model_name", model_name p);
    ("parameters", TextCompletion_parameters p)
  ].

(** The defaults of [ChatCompletion]'s signature.  The default of [stop]
    is the method's one list object, whose contents are read from the world. *)
Definition ChatCompletion_defaults (w : world) : kwargs pyval :=
  {| model_name := VStr "Starstreak";
     best_of := VInt 1;
     decoder_input_details := VBool true;
     details := VBool true;
     do_sample := VBool true;
     max_new_tokens := VInt 128;
     repetition_penalty := VFloat float_1_03;
     return_full_text := VBool false;
     seed := VNone;
     stop := VList (ChatCompletion_stop_default w);
     temperature := VFloat float_0_7;
     top_k := VInt 50;
     top_n_tokens := VNone;
     top_p := VFloat float_0_95;
     truncate := VNone;
     typical_p := VFloat float_0_95;
     watermark := VBool false |}.

(** The defaults of [TextCompletion]'s signature. *)
Definition TextCompletion_defaults (w : world) : kwargs pyval :=
  {| model_name := VStr "Starstreak";
     best_of := VInt 1;
     decoder_input_details := VBool true;
     details := VBool true;
     do_sample := VBool true;
     max_new_tokens := VInt 128;
     repetition_penalty := VFloat float_1_03;
     return_full_text := VBool false;
     seed := VNone;
     stop := VList (TextCompletion_stop_default w);
     temperature := VFloat float_0_7;
     top_k := VInt 50;
     top_n_tokens := VNone;
     top_p := VFloat float_0_95;
     truncate := VNone;
     typical_p := VFloat float_0_95;
     watermark := VBool false |}.

Definition json_headers : list (string * string) :=
  [("Content-Type", "application/json")].

(** The body of the validation loop: it subscripts [chat_history], not the
    loop variable [i]. *)
Definition role_check (chat_history i : pyval) : M unit :=
  role <- lift (getitem_str chat_history "role") ;;
  if negb (in_strs role ["user"; "assistant"; "system"])
  then raise (ValueError role_error)
  else ret tt.

Section Methods.

Variable net : transport.

(** [requests.post(url, json=data, headers=headers)]: the invocation is
    recorded, then the transport answers or fails. *)
Definition requests_post (url : string) (data : pyval)
    (headers : list (string * string)) : M response :=
  fun w =>
    let rq := {| req_url := url; req_json := data; req_headers := headers |} in
    match net (posted w) rq with
    | Responded r => (Ok r, record_post rq w)
    | Failed e => (Raise e, record_post rq w)
    end.

(** [response.json()] *)
Definition response_json (r : response) : M pyval :=
  match resp_json r with
  | Some body => ret body
  | None => raise JSONDecodeError
  end.

Definition ChatCompletion (chat_history : pyval) (a : call_args)
  : M (pyval * Z) :=
  w <- get ;;
  let p := resolve a (ChatCompletion_defaults w) in
  for_in chat_history (role_check chat_history) ;;;
  let data := ChatCompletion_data (self_token w) chat_history p in
  let headers := json_headers in
  response <- requests_post CHAT_URL data headers ;;
  body <- response_json response ;;
  ret (body, status_code response).

Definition TextCompletion (text : pyval) (a : call_args) : M (pyval * Z) :=
  w <- get ;;
  let p := resolve a (TextCompletion_defaults w) in
  let data := TextCompletion_data (self_token w) text p in
  let headers := json_headers in
  response <- requests_post TEXT_URL data headers ;;
  body <- response_json response ;;
  ret (body, status_code response).

(** A caller's use of the client: a sequence of method calls.  An exception
    of one call reaches the caller, who may go on calling. *)
Inductive call : Type :=
| CallChat (chat_history : pyval) (a : call_args)
| CallText (text : pyval) (a : call_args).

Definition do_call (c : call) : M (pyval * Z) :=
  match c with
  | CallChat chat_history a => ChatCompletion chat_history a
  | CallText text a => TextCompletion text a
  end.

Fixpoint exec (cs : list call) (w : world) : world :=
  match cs with
  | [] => w
  | c :: rest => exec rest (snd (do_call c w))
  end.

End Methods.

(** * Notions the statements use *)

(** A chat message [{"role": role, "text": text}]. *)
Definition message (role text : string) : pyval :=
  VDict [("role", VStr role); ("text", VStr text)].

(** The roles the spec allows. *)
Definition allowed_role (role : string) : bool :=
  existsb (String.eqb role) ["user"; "assistant"; "system"].

(** The request a method posts: the world's record grows by exactly [rq]. *)
Definition posts (run : M (pyval * Z)) (w : world) (rq : request) : Prop :=
  posted (snd (run w)) = posted w ++ [rq].

(** The method raises before it reaches the transport. *)
Definition fails_unsent (run : M (pyval * Z)) (w : world) (e : exn) : Prop :=
  run w = (Raise e, w).

(** The ["parameters"] object of a request body, and one entry of it. *)
Definition parameters_of (rq : request) : option pyval :=
  field "parameters" (req_json rq).

Definition parameter (k : string) (rq : request) : option pyval :=
  match parameters_of rq with
  | Some ps => field k ps
  | None => None
  end.

(** A body with one top-level field left out. *)
Definition without (k : string) (v : pyval) : pyval :=
  match v with
  | VDict d => VDict (dict_remove k d)
  | _ => v
  end.

(** How the result of a method follows from the transport's answer. *)
Definition passed_through (o : post_outcome) : result (pyval * Z) :=
  match o with
  | Responded r =>
      match resp_json r with
      | Some body => Ok (body, status_code r)
      | None => Raise JSONDecodeError
      end
  | Failed e => Raise e
  end.

(** The table of defaults of the spec (section 4.1), with the default model. *)
Definition spec_defaults : kwargs pyval :=
  {| model_name := VStr "Starstreak";
     best_of := VInt 1;
     decoder_input_details := VBool true;
     details := VBool true;
     do_sample := VBool true;
     max_new_tokens := VInt 128;
     repetition_penalty := VFloat float_1_03;
     return_full_text := VBool false;
     seed := VNone;
     stop := VList [];
     temperature := VFloat float_0_7;
     top_k := VInt 50;
     top_n_tokens := VNone;
     top_p := VFloat float_0_95;
     truncate := VNone;
     typical_p := VFloat float_0_95;
     watermark := VBool false |}.

(** The names of the generation parameters, in the order of the table. *)
Definition generation_parameters : list string :=
  ["best_of"; "decoder_input_details"; "details"; "do_sample";
   "max_new_tokens"; "repetition_penalty"; "return_full_text"; "seed";
   "stop"; "temperature"; "top_k"; "top_n_tokens"; "top_p"; "truncate";
   "typical_p"; "watermark"].

(** The value of the generation parameter named [k] in a binding. *)
Definition value_of (k : string) (v : kwargs pyval) : option pyval :=
  field k (VDict [
    ("best_of", best_of v);
    ("decoder_input_details", decoder_input_details v);
    ("details", details v);
    ("do_sample", do_sample v);
    ("max_new_tokens", max_new_tokens v);
    ("repetition_penalty", repetition_penalty v);
    ("return_full_text", return_full_text v);
    ("seed", seed v);
    ("stop", stop v);
    ("temperature", temperature v);
    ("top_k", top_k v);
    ("top_n_tokens", top_n_tokens v);
    ("top_p", top_p v);
    ("truncate", truncate v);
    ("typical_p", typical_p v);
    ("watermark", watermark v)
  ]).

(** The keys of a dict value. *)
Definition keys_of (v : pyval) : list string :=
  match v with
  | VDict d => dict_keys d
  | _ => []
  end.

(** What one run of the loop body yields; it does not look at the item. *)
Definition role_check_result (chat_history : pyval) : result unit :=
  match getitem_str chat_history "role" with
  | Ok role =>
      if in_strs role ["user"; "assistant"; "system"]
      then Ok tt
      else Raise (ValueError role_error)
  | Raise e => Raise e
  end.

(** What the whole loop yields. *)
Definition validation (chat_history : pyval) : result unit :=
  match py_iter chat_history with
  | Ok [] => Ok tt
  | Ok (_ :: _) => role_check_result chat_history
  | Raise e => Raise e
  end.

(** The request [ChatCompletion] hands to [requests.post] in world [w]. *)
Definition ChatCompletion_request (chat_history : pyval) (a : call_args)
    (w : world) : request :=
  {| req_url := CHAT_URL;
     req_json := ChatCompletion_data (self_token w) chat_history
                   (resolve a (ChatCompletion_defaults w));
     req_headers := json_headers |}.

(** The request [TextCompletion] hands to [requests.post] in world [w]. *)
Definition TextCompletion_request (text : pyval) (a : call_args)
    (w : world) : request :=
  {| req_url := TEXT_URL;
     req_json := TextCompletion_data (self_token w) text
                   (resolve a (TextCompletion_defaults w));
     req_headers := json_headers |}.

(** The part of the world the methods only read. *)
Definition same_objects (w w' : world) : Prop :=
  self_token w' = self_token w /\
  ChatCompletion_stop_default w' = ChatCompletion_stop_default w /\
  TextCompletion_stop_default w' = TextCompletion_stop_default w.

(** The chat history of the class docstring. *)
Definition docstring_history : pyval :=
  VList [message "user" "Hello, how are you?";
         message "assistant" "I'm fine, thank you.";
         message "user" "That's good to hear."].

(** A transport that answers every request with one fixed response. *)
Definition mock (body : pyval) (status : Z) : transport :=
  fun _ _ => Responded {| resp_json := Some body; status_code := status |}.

Definition mock_ok : transport :=
  mock (VDict [("generated_text", VStr "hi")]) 200.

Definition mock_error : transport :=
  mock (VDict [("error", VStr "internal")]) 500.

(** The roles of the messages of a chat history (the messages that are dicts
    with a string under ["role"]); [None] for anything else. *)
Definition role_of (m : pyval) : option string :=
  match field "role" m with
  | Some (VStr r) => Some r
  | _ => None
  end.

Definition valid_message (m : pyval) : bool :=
  match role_of m with
  | Some r => allowed_role r
  | None => false
  end.

(** C2 as the spec states it, at one chat history: if every message has an
    allowed role then a request is posted whose parameters object holds 17
    generation parameters, each at its default. *)
Definition C2_as_stated (net : transport) (w : world) (messages : list pyval)
  : Prop :=
  forallb valid_message messages = true ->
  exists rq ps,
    posts (ChatCompletion net (VList messages) no_kwargs) w rq /\
    parameters_of rq = Some ps /\
    length (keys_of ps) = 17%nat /\
    forall k, In k (keys_of ps) -> field k ps = value_of k spec_defaults.

(** A request body carries the values [v]: its [model_name] field and the
    sixteen entries of its parameters object are those of [v]. *)
Definition carries (v : kwargs pyval) (rq : request) : Prop :=
  field "model_name" (req_json rq) = Some (model_name v) /\
  exists ps,
    parameters_of rq = Some ps /\
    keys_of ps = generation_parameters /\
    forall k, In k generation_parameters -> field k ps = value_of k v.

(** What two bodies that differ only in the model name share: the client's
    token, and everything else but the ["model_name"] field. *)
Definition differ_only_in_model_name (token : pyval) (m1 m2 : pyval)
    (r1 r2 : request) : Prop :=
  field "token" (req_json r1) = Some token /\
  field "token" (req_json r2) = Some token /\
  field "model_name" (req_json r1) = Some m1 /\
  field "model_name" (req_json r2) = Some m2 /\
  without "model_name" (req_json r1) = without "model_name" (req_json r2).

(** The [stop] argument of a call. *)
Definition call_stop (c : call) : option pyval :=
  match c with
  | CallChat _ a => stop a
  | CallText _ a => stop a
  end.

(** The list literal of the loop's membership test, as values. *)
Definition role_literals : list pyval :=
  [VStr "user"; VStr "assistant"; VStr "system"].

(** The requests one call adds to the record of world [w]. *)
Definition sent_by (net : transport) (c : call) (w : world) : list request :=
  skipn (length (posted w)) (posted (snd (do_call net c w))).

(** The requests a call posts, read off the two methods: one for
    [TextCompletion], one for [ChatCompletion] past its loop, none otherwise. *)
Definition call_requests (c : call) (w : world) : list request :=
  match c with
  | CallText text a => [TextCompletion_request text a w]
  | CallChat chat_history a =>
      match validation chat_history with
      | Ok _ => [ChatCompletion_request chat_history a w]
      | Raise _ => []
      end
  end.

Definition is_text_call (c : call) : bool :=
  match c with
  | CallText _ _ => true
  | CallChat _ _ => false
  end.

(** The shape every posted request has, for a client built with [token]. *)
Definition well_formed_request (token : pyval) (rq : request) : Prop :=
  (req_url rq = CHAT_URL \/ req_url rq = TEXT_URL) /\
  req_headers rq = [("Content-Type", "application/json")] /\
  keys_of (req_json rq) = ["token"; "inputs"; "model_name"; "parameters"] /\
  field "token" (req_json rq) = Some token /\
  exists ps, parameters_of rq = Some ps /\ keys_of ps = generation_parameters.

(** The value a caller passes for the generation parameter named [k]
    ([None]: the parameter is omitted, or [k] names no parameter). *)
Definition passed (k : string) (a : call_args) : option pyval :=
  match
    find (fun e => String.eqb k (fst e))
      [("best_of", best_of a);
       ("decoder_input_details", decoder_input_details a);
       ("details", details a);
       ("do_sample", do_sample a);
       ("max_new_tokens", max_new_tokens a);
       ("repetition_penalty", repetition_penalty a);
       ("return_full_text", return_full_text a);
       ("seed", seed a);
       ("stop", stop a);
       ("temperature", temperature a);
       ("top_k", top_k a);
       ("top_n_tokens", top_n_tokens a);
       ("top_p", top_p a);
       ("truncate", truncate a);
       ("typical_p", typical_p a);
       ("watermark", watermark a)]
  with
  | Some (_, x) => x
  | None => None
  end.

(** The call that passes only [stop]. *)
Definition only_stop (x : pyval) : call_args :=
  {| model_name := None; best_of := None; decoder_input_details := None;
     details := None; do_sample := None; max_new_tokens := None;
     repetition_penalty := None; return_full_text := None; seed := None;
     stop := Some x; temperature := None; top_k := None; top_n_tokens := None;
     top_p := None; truncate := None; typical_p := None; watermark := None |}.

(** The exchange about request [rq] ends in exception [e]: the transport
    fails with [e], or it answers with a body that is not JSON and [e] is the
    decoding error. *)
Definition exchange_raises (net : transport) (w : world) (rq : request)
    (e : exn) : Prop :=
  net (posted w) rq = Failed e \/
  exists r, net (posted w) rq = Responded r /\ resp_json r = None /\
            e = JSONDecodeError.

(** The exchange about request [rq] ends in the pair [(body, status)]. *)
Definition exchange_returns (net : transport) (w : world) (rq : request)
    (body : pyval) (status : Z) : Prop :=
  exists r, net (posted w) rq = Responded r /\ resp_json r = Some body /\
            status_code r = status.

(** * Properties *)

(** ** The validation loop *)

Lemma role_check_run (chat_history i : pyval) (w : world) :
  role_check chat_history i w = (role_check_result chat_history, w).
Proof.
  unfold role_check, role_check_result, bind, lift.
  destruct (getitem_str chat_history "role") as [role|e]; [|reflexivity].
  destruct (in_strs role _); reflexivity.
Qed.

Lemma for_each_role_check (chat_history : pyval) (items : list pyval) (w : world) :
  for_each items (role_check chat_history) w =
  (match items with [] => Ok tt | _ :: _ => role_check_result chat_history end, w).
Proof.
  induction items as [|i rest IH]; [reflexivity|].
  cbn [for_each]. unfold bind at 1. rewrite role_check_run.
  destruct (role_check_result chat_history) as [[]|e] eqn:E; [|reflexivity].
  rewrite IH. destruct rest; reflexivity.
Qed.

Lemma for_in_role_check (chat_history : pyval) (w : world) :
  for_in chat_history (role_check chat_history) w = (validation chat_history, w).
Proof.
  unfold for_in, validation, bind, lift.
  destruct (py_iter chat_history) as [items|e]; [|reflexivity].
  rewrite for_each_role_check. destruct items; reflexivity.
Qed.

(** A list cannot be subscripted by ['role']: every non-empty list fails the
    loop with [TypeError], whatever its messages are. *)
Lemma validation_list (l : list pyval) :
  validation (VList l) = match l with [] => Ok tt | _ :: _ => Raise TypeError end.
Proof. destruct l; reflexivity. Qed.

(** ** The two methods, step by step *)

Section MethodFacts.

Variable net : transport.

Lemma exchange_run (url : string) (data : pyval) (w : world) :
  (response <- requests_post net url data json_headers ;;
   body <- response_json response ;;
   ret (body, status_code response)) w =
  let rq := {| req_url := url; req_json := data; req_headers := json_headers |} in
  (passed_through (net (posted w) rq), record_post rq w).
Proof.
  unfold bind, requests_post, response_json, passed_through, ret, raise. cbn.
  destruct (net (posted w) _) as [r|e]; [|reflexivity].
  destruct (resp_json r); reflexivity.
Qed.

Lemma TextCompletion_run (text : pyval) (a : call_args) (w : world) :
  TextCompletion net text a w =
  (passed_through (net (posted w) (TextCompletion_request text a w)),
   record_post (TextCompletion_request text a w) w).
Proof.
  unfold TextCompletion. unfold bind at 1, get.
  cbv zeta. rewrite exchange_run. reflexivity.
Qed.

Lemma ChatCompletion_run (chat_history : pyval) (a : call_args) (w : world) :
  ChatCompletion net chat_history a w =
  match validation chat_history with
  | Ok _ =>
      (passed_through (net (posted w) (ChatCompletion_request chat_history a w)),
       record_post (ChatCompletion_request chat_history a w) w)
  | Raise e => (Raise e, w)
  end.
Proof.
  unfold ChatCompletion. unfold bind at 1, get.
  cbv zeta. unfold bind at 1. rewrite for_in_role_check.
  destruct (validation chat_history) as [[]|e]; [|reflexivity].
  rewrite exchange_run. reflexivity.
Qed.

Lemma posted_record_post (rq : request) (w : world) :
  posted (record_post rq w) = posted w ++ [rq].
Proof. reflexivity. Qed.

Lemma app_one_inj (l : list request) (x y : request) :
  l ++ [x] = l ++ [y] -> x = y.
Proof. intros H. apply app_inv_head in H. congruence. Qed.

Lemma app_one_neq (l : list request) (x : request) : l <> l ++ [x].
Proof.
  intros H. apply (f_equal (@length request)) in H.
  rewrite length_app in H. cbn in H. lia.
Qed.

Lemma TextCompletion_posts (text : pyval) (a : call_args) (w : world) :
  posts (TextCompletion net text a) w (TextCompletion_request text a w).
Proof. unfold posts. rewrite TextCompletion_run. reflexivity. Qed.

Lemma TextCompletion_posts_inv (text : pyval) (a : call_args) (w : world)
    (rq : request) :
  posts (TextCompletion net text a) w rq -> rq = TextCompletion_request text a w.
Proof.
  unfold posts. rewrite TextCompletion_run. cbn [snd].
  rewrite posted_record_post. intros H. symmetry. exact (app_one_inj _ _ _ H).
Qed.

Lemma ChatCompletion_posts_inv (chat_history : pyval) (a : call_args)
    (w : world) (rq : request) :
  posts (ChatCompletion net chat_history a) w rq ->
  validation chat_history = Ok tt /\
  rq = ChatCompletion_request chat_history a w.
Proof.
  unfold posts. rewrite ChatCompletion_run.
  destruct (validation chat_history) as [[]|e]; cbn [snd].
  - rewrite posted_record_post. intros H. split; [reflexivity|].
    symmetry. exact (app_one_inj _ _ _ H).
  - intros H. exfalso. exact (app_one_neq _ _ H).
Qed.

Lemma ChatCompletion_posts (chat_history : pyval) (a : call_args) (w : world) :
  validation chat_history = Ok tt ->
  posts (ChatCompletion net chat_history a) w
        (ChatCompletion_request chat_history a w).
Proof.
  intros V. unfold posts. rewrite ChatCompletion_run, V. reflexivity.
Qed.

Lemma ChatCompletion_posts_nil (a : call_args) (w : world) :
  posts (ChatCompletion net (VList []) a) w
        (ChatCompletion_request (VList []) a w).
Proof. apply ChatCompletion_posts. reflexivity. Qed.

(** A call of [ChatCompletion] either raises in the loop, the world left as
    it was, or posts its request. *)
Lemma ChatCompletion_fails_or_posts (chat_history : pyval) (a : call_args)
    (w : world) :
  (exists e, fails_unsent (ChatCompletion net chat_history a) w e) \/
  posts (ChatCompletion net chat_history a) w
        (ChatCompletion_request chat_history a w).
Proof.
  unfold fails_unsent, posts. rewrite ChatCompletion_run.
  destruct (validation chat_history) as [[]|e].
  - right. reflexivity.
  - left. exists e. reflexivity.
Qed.

Lemma ChatCompletion_answered (chat_history : pyval) (a : call_args)
    (w : world) (r : response) (body : pyval) :
  posts (ChatCompletion net chat_history a) w
        (ChatCompletion_request chat_history a w) ->
  resp_json r = Some body ->
  net (posted w) (ChatCompletion_request chat_history a w) = Responded r ->
  fst (ChatCompletion net chat_history a w) = Ok (body, status_code r).
Proof.
  intros P J N. apply ChatCompletion_posts_inv in P. destruct P as (V & _).
  rewrite ChatCompletion_run, V. cbn [fst]. rewrite N. cbn. rewrite J.
  reflexivity.
Qed.

End MethodFacts.

(** ** What a call leaves unchanged *)

Section Frame.

Variable net : transport.

Lemma same_objects_refl (w : world) : same_objects w w.
Proof. repeat split. Qed.

Lemma same_objects_trans (w1 w2 w3 : world) :
  same_objects w1 w2 -> same_objects w2 w3 -> same_objects w1 w3.
Proof.
  intros (A1 & A2 & A3) (B1 & B2 & B3).
  repeat split; congruence.
Qed.

Lemma same_objects_record_post (rq : request) (w : world) :
  same_objects w (record_post rq w).
Proof. repeat split. Qed.

Lemma TextCompletion_frame (text : pyval) (a : call_args) (w : world) :
  same_objects w (snd (TextCompletion net text a w)).
Proof. rewrite TextCompletion_run. apply same_objects_record_post. Qed.

Lemma ChatCompletion_frame (chat_history : pyval) (a : call_args) (w : world) :
  same_objects w (snd (ChatCompletion net chat_history a w)).
Proof.
  rewrite ChatCompletion_run. destruct (validation chat_history).
  - apply same_objects_record_post.
  - apply same_objects_refl.
Qed.

Lemma do_call_frame (c : call) (w : world) :
  same_objects w (snd (do_call net c w)).
Proof.
  destruct c; [apply ChatCompletion_frame | apply TextCompletion_frame].
Qed.

Lemma exec_frame (cs : list call) (w : world) :
  same_objects w (exec net cs w).
Proof.
  revert w. induction cs as [|c rest IH]; intros w; cbn [exec].
  - apply same_objects_refl.
  - eapply same_objects_trans; [apply do_call_frame | apply IH].
Qed.

(** In every world a caller can reach from a fresh client, both [stop]
    defaults are still the empty list and the token is the constructor's. *)
Lemma reachable_objects (token : pyval) (cs : list call) :
  let w := exec net cs (GentaAPI_init token) in
  self_token w = token /\
  ChatCompletion_stop_default w = [] /\
  TextCompletion_stop_default w = [].
Proof. exact (exec_frame cs (GentaAPI_init token)). Qed.

Lemma reachable_ChatCompletion_defaults (token : pyval) (cs : list call) :
  ChatCompletion_defaults (exec net cs (GentaAPI_init token)) = spec_defaults.
Proof.
  destruct (reachable_objects token cs) as (_ & H & _).
  unfold ChatCompletion_defaults. rewrite H. reflexivity.
Qed.

Lemma reachable_TextCompletion_defaults (token : pyval) (cs : list call) :
  TextCompletion_defaults (exec net cs (GentaAPI_init token)) = spec_defaults.
Proof.
  destruct (reachable_objects token cs) as (_ & _ & H).
  unfold TextCompletion_defaults. rewrite H. reflexivity.
Qed.

End Frame.

(** ** The claims *)

(** C1 (the code departs from the claim).  The claim: a chat history with a
    message whose role is outside user, assistant, system makes
    [ChatCompletion] fail with [ValueError] before anything is posted.  The
    code, on the history [user, admin]: the loop subscripts the list itself,
    so the call raises [TypeError], not the documented [ValueError]; nothing
    is posted. *)
Theorem C1_invalid_role_raises_TypeError :
  forall (net : transport) (token : pyval) (a : call_args),
    let w := GentaAPI_init token in
    let chat_history := VList [message "user" "Hello"; message "admin" "Hi"] in
    existsb (fun m => negb (valid_message m))
            [message "user" "Hello"; message "admin" "Hi"] = true /\
    ChatCompletion net chat_history a w = (Raise TypeError, w) /\
    ChatCompletion net chat_history a w <> (Raise (ValueError role_error), w) /\
    posted (snd (ChatCompletion net chat_history a w)) = [].
Proof.
  intros net token a w chat_history.
  assert (E : ChatCompletion net chat_history a w = (Raise TypeError, w)).
  { rewrite ChatCompletion_run. reflexivity. }
  split; [reflexivity|]. split; [exact E|]. split.
  - rewrite E. intros H. discriminate H.
  - rewrite E. reflexivity.
Qed.

(** C2, counterexample.  On the empty history the body is built, but its
    parameters object has the 16 entries of the table, not 17 ([model_name]
    is a field of the body, beside ["parameters"]).  On the docstring's
    history, whose roles are all allowed, no body is built at all. *)
Lemma C2_counterexample :
  let w := GentaAPI_init (VStr "your-token") in
  (~ C2_as_stated mock_ok w []) /\
  (exists rq ps,
     posts (ChatCompletion mock_ok (VList []) no_kwargs) w rq /\
     parameters_of rq = Some ps /\ length (keys_of ps) = 16%nat) /\
  (~ C2_as_stated mock_ok w
       [message "user" "Hello, how are you?";
        message "assistant" "I'm fine, thank you.";
        message "user" "That's good to hear."]) /\
  ChatCompletion mock_ok docstring_history no_kwargs w = (Raise TypeError, w).
Proof.
  intros w. split; [|split; [|split]].
  - intros H. destruct (H eq_refl) as (rq & ps & P & Q & L & _).
    apply ChatCompletion_posts_inv in P. destruct P as (_ & ->).
    cbv in Q. injection Q as <-. cbv in L. discriminate L.
  - eexists. eexists. split; [|split].
    + apply ChatCompletion_posts. reflexivity.
    + reflexivity.
    + reflexivity.
  - intros H. destruct (H eq_refl) as (rq & ps & P & _).
    apply ChatCompletion_posts_inv in P. destruct P as (V & _).
    discriminate V.
  - rewrite ChatCompletion_run. reflexivity.
Qed.

(** C2 (amended).  Whenever [ChatCompletion] gets past its role check and
    posts a request, in any world reached from a fresh client, the body's
    parameters object has exactly the 16 generation parameters of the table,
    each at the caller's value or, where the caller passes none, at its
    documented default; [model_name], the seventeenth defaulted argument, is
    a field of the body itself and defaults to "Starstreak". *)
Theorem C2_parameters_defaulted :
  forall (net : transport) (token : pyval) (cs : list call)
         (chat_history : pyval) (a : call_args) (rq : request),
    let w := exec net cs (GentaAPI_init token) in
    posts (ChatCompletion net chat_history a) w rq ->
    field "model_name" (req_json rq) = Some (model_name (resolve a spec_defaults)) /\
    exists ps,
      parameters_of rq = Some ps /\
      keys_of ps = generation_parameters /\
      length (keys_of ps) = 16%nat /\
      forall k, In k generation_parameters ->
                field k ps = value_of k (resolve a spec_defaults).
Proof.
  intros net token cs chat_history a rq w P.
  apply ChatCompletion_posts_inv in P. destruct P as (_ & ->).
  unfold ChatCompletion_request, parameters_of. cbn [req_json].
  subst w. rewrite reachable_ChatCompletion_defaults.
  split; [reflexivity|].
  exists (ChatCompletion_parameters (resolve a spec_defaults)).
  repeat split.
Qed.

Lemma C2_parameters_defaulted_witness :
  let w := GentaAPI_init (VStr "your-token") in
  let rq := ChatCompletion_request (VList []) no_kwargs w in
  posts (ChatCompletion mock_ok (VList []) no_kwargs) (exec mock_ok [] w) rq /\
  (field "model_name" (req_json rq) = Some (VStr "Starstreak") /\
   exists ps,
     parameters_of rq = Some ps /\
     keys_of ps = generation_parameters /\
     length (keys_of ps) = 16%nat /\
     forall k, In k generation_parameters ->
               field k ps = value_of k (resolve no_kwargs spec_defaults)).
Proof.
  intros w rq. split; [reflexivity|].
  apply (C2_parameters_defaulted mock_ok (VStr "your-token") [] (VList [])
           no_kwargs rq).
  reflexivity.
Defined.

(** C3.  Whatever response the transport gives to the request a method
    posted, the method returns the pair of the decoded body and the status
    code as they are; the status code is not looked at, so a status outside
    2xx raises nothing.  [TextCompletion] posts on every call and
    [ChatCompletion] on the empty history; on any other history
    [ChatCompletion] either raised in its loop, before the transport, or
    posted and passes the response through in the same way. *)
Theorem C3_response_passed_through :
  forall (net : transport) (w : world) (a : call_args)
         (r : response) (body : pyval),
    resp_json r = Some body ->
    (forall text,
        exists rq,
          posts (TextCompletion net text a) w rq /\
          (net (posted w) rq = Responded r ->
           fst (TextCompletion net text a w) = Ok (body, status_code r))) /\
    (exists rq,
        posts (ChatCompletion net (VList []) a) w rq /\
        (net (posted w) rq = Responded r ->
         fst (ChatCompletion net (VList []) a w) = Ok (body, status_code r))) /\
    (forall chat_history,
        (exists e, fails_unsent (ChatCompletion net chat_history a) w e) \/
        exists rq,
          posts (ChatCompletion net chat_history a) w rq /\
          (net (posted w) rq = Responded r ->
           fst (ChatCompletion net chat_history a w) =
             Ok (body, status_code r))).
Proof.
  intros net w a r body J. split; [|split].
  - intros text. exists (TextCompletion_request text a w).
    split; [apply TextCompletion_posts|].
    intros N. rewrite TextCompletion_run. cbn [fst]. rewrite N. cbn.
    rewrite J. reflexivity.
  - exists (ChatCompletion_request (VList []) a w).
    split; [apply ChatCompletion_posts_nil|].
    apply ChatCompletion_answered; [apply ChatCompletion_posts_nil | exact J].
  - intros chat_history.
    destruct (ChatCompletion_fails_or_posts net chat_history a w) as [F | P];
      [left; exact F | right].
    exists (ChatCompletion_request chat_history a w).
    split; [exact P|]. apply ChatCompletion_answered; assumption.
Qed.

Lemma C3_response_passed_through_witness :
  let w := GentaAPI_init (VStr "your-token") in
  let body := VDict [("error", VStr "internal")] in
  let r := {| resp_json := Some body; status_code := 500 |} in
  resp_json r = Some body /\
  fst (TextCompletion mock_error (VStr "Hello") no_kwargs w) = Ok (body, 500%Z) /\
  fst (ChatCompletion mock_error (VList []) no_kwargs w) = Ok (body, 500%Z).
Proof.
  intros w body r. split; [reflexivity|].
  destruct (C3_response_passed_through mock_error w no_kwargs r body eq_refl)
    as (T & (rq & _ & C) & _).
  destruct (T (VStr "Hello")) as (rq' & _ & T').
  split; [exact (T' eq_refl) | exact (C eq_refl)].
Defined.

(** C4.  When the caller passes the model name and every generation
    parameter, the body either method posts carries exactly the values
    passed, whatever the defaults are.  [TextCompletion] posts such a body on
    every call, [ChatCompletion] on the empty history; on any other history
    [ChatCompletion] either raised in its loop, before a body is built, or
    posted such a body. *)
Theorem C4_overrides_carried :
  forall (net : transport) (w : world) (v : kwargs pyval),
    (forall text,
        exists rq, posts (TextCompletion net text (all_kwargs v)) w rq /\
                   carries v rq) /\
    (exists rq, posts (ChatCompletion net (VList []) (all_kwargs v)) w rq /\
                carries v rq) /\
    (forall chat_history,
        (exists e,
            fails_unsent (ChatCompletion net chat_history (all_kwargs v)) w e) \/
        exists rq,
          posts (ChatCompletion net chat_history (all_kwargs v)) w rq /\
          carries v rq).
Proof.
  intros net w v.
  assert (K : forall chat_history,
             carries v (ChatCompletion_request chat_history (all_kwargs v) w)).
  { intros chat_history. split; [reflexivity|].
    exists (ChatCompletion_parameters v). repeat split. }
  split; [|split].
  - intros text. exists (TextCompletion_request text (all_kwargs v) w).
    split; [apply TextCompletion_posts|].
    split; [reflexivity|].
    exists (TextCompletion_parameters v). repeat split.
  - eexists. split; [apply ChatCompletion_posts_nil | apply K].
  - intros chat_history.
    destruct (ChatCompletion_fails_or_posts net chat_history (all_kwargs v) w)
      as [F | P]; [left; exact F | right].
    eexists. split; [exact P | apply K].
Qed.

(** C5.  [TextCompletion("Hello")] with nothing else passed posts a body
    whose ["inputs"] field is the string "Hello" itself. *)
Theorem C5_text_inputs_is_the_string :
  forall (net : transport) (w : world),
    exists rq,
      posts (TextCompletion net (VStr "Hello") no_kwargs) w rq /\
      field "inputs" (req_json rq) = Some (VStr "Hello") /\
      field "inputs" (req_json rq) <> Some (VList [VStr "Hello"]).
Proof.
  intros net w. exists (TextCompletion_request (VStr "Hello") no_kwargs w).
  split; [apply TextCompletion_posts|].
  split; [reflexivity|]. cbn. intros H. discriminate H.
Qed.

(** C6.  [TextCompletion] checks nothing: for every text and every choice
    of arguments it raises nothing before the transport is reached, posts
    exactly one request, to the text endpoint and with the text as its
    inputs, and its result is decided by the transport's answer alone. *)
Theorem C6_text_no_validation :
  forall (net : transport) (text : pyval) (a : call_args) (w : world),
    (forall e, ~ fails_unsent (TextCompletion net text a) w e) /\
    exists rq,
      posts (TextCompletion net text a) w rq /\
      req_url rq = TEXT_URL /\
      field "inputs" (req_json rq) = Some text /\
      fst (TextCompletion net text a w) = passed_through (net (posted w) rq).
Proof.
  intros net text a w. split.
  - intros e F. unfold fails_unsent in F.
    apply (f_equal (fun x => posted (snd x))) in F. cbn [snd] in F.
    rewrite (TextCompletion_posts net text a w) in F.
    symmetry in F. exact (app_one_neq _ _ F).
  - exists (TextCompletion_request text a w).
    split; [apply TextCompletion_posts|].
    split; [reflexivity|]. split; [reflexivity|].
    rewrite TextCompletion_run. reflexivity.
Qed.

(** C7.  No call changes the client's token, and every body carries it: of
    two calls in a row that differ only in the model name, the second finds
    the token (and both [stop] defaults) as the first did, and the two bodies
    posted agree on the token and on every field but ["model_name"], which
    holds the model name passed (or "Starstreak" where none is).
    [TextCompletion] posts the two bodies on every pair of calls and
    [ChatCompletion] on the empty history; on any other history the two
    [ChatCompletion] calls either both raise in the loop, the world left as
    it was, or post two such bodies. *)
Theorem C7_token_unchanged :
  forall (net : transport) (w : world) (a : call_args) (m1 m2 : option pyval),
    let a1 := with_model_name m1 a in
    let a2 := with_model_name m2 a in
    (forall text,
        let w1 := snd (TextCompletion net text a1 w) in
        let w2 := snd (TextCompletion net text a2 w1) in
        self_token w1 = self_token w /\ self_token w2 = self_token w /\
        exists r1 r2,
          posted w2 = posted w ++ [r1; r2] /\
          differ_only_in_model_name (self_token w)
            (arg m1 (VStr "Starstreak")) (arg m2 (VStr "Starstreak")) r1 r2) /\
    (let w1 := snd (ChatCompletion net (VList []) a1 w) in
     let w2 := snd (ChatCompletion net (VList []) a2 w1) in
     exists r1 r2,
       posted w2 = posted w ++ [r1; r2] /\
       differ_only_in_model_name (self_token w)
         (arg m1 (VStr "Starstreak")) (arg m2 (VStr "Starstreak")) r1 r2) /\
    (forall chat_history,
        let w1 := snd (ChatCompletion net chat_history a1 w) in
        let w2 := snd (ChatCompletion net chat_history a2 w1) in
        self_token w1 = self_token w /\ self_token w2 = self_token w /\
        ((exists e,
             fails_unsent (ChatCompletion net chat_history a1) w e /\
             fails_unsent (ChatCompletion net chat_history a2) w1 e /\
             w2 = w) \/
         exists r1 r2,
           posted w2 = posted w ++ [r1; r2] /\
           differ_only_in_model_name (self_token w)
             (arg m1 (VStr "Starstreak")) (arg m2 (VStr "Starstreak")) r1 r2)).
Proof.
  intros net w a m1 m2 a1 a2.
  assert (K : forall chat_history,
             validation chat_history = Ok tt ->
             let w1 := snd (ChatCompletion net chat_history a1 w) in
             let w2 := snd (ChatCompletion net chat_history a2 w1) in
             exists r1 r2,
               posted w2 = posted w ++ [r1; r2] /\
               differ_only_in_model_name (self_token w)
                 (arg m1 (VStr "Starstreak")) (arg m2 (VStr "Starstreak"))
                 r1 r2).
  { intros chat_history V w1 w2.
    destruct (ChatCompletion_frame net chat_history a1 w) as (T1 & C1 & X1).
    fold w1 in T1, C1, X1.
    exists (ChatCompletion_request chat_history a1 w),
           (ChatCompletion_request chat_history a2 w1).
    split.
    - unfold w2. rewrite ChatCompletion_run, V. cbn [snd].
      rewrite posted_record_post. unfold w1 at 1.
      rewrite ChatCompletion_run, V. cbn [snd]. rewrite posted_record_post.
      rewrite <- app_assoc. reflexivity.
    - unfold differ_only_in_model_name, ChatCompletion_request.
      cbn [req_json]. unfold ChatCompletion_defaults. rewrite T1, C1.
      repeat split. }
  split; [|split].
  - intros text w1 w2.
    destruct (TextCompletion_frame net text a1 w) as (T1 & C1 & X1).
    destruct (TextCompletion_frame net text a2 w1) as (T2 & C2 & X2).
    fold w1 in T1, C1, X1. fold w2 in T2, C2, X2.
    split; [exact T1|]. split; [congruence|].
    exists (TextCompletion_request text a1 w), (TextCompletion_request text a2 w1).
    split.
    + unfold w2. rewrite TextCompletion_run. cbn [snd].
      rewrite posted_record_post. unfold w1 at 1.
      rewrite TextCompletion_run. cbn [snd]. rewrite posted_record_post.
      rewrite <- app_assoc. reflexivity.
    + unfold differ_only_in_model_name, TextCompletion_request.
      cbn [req_json]. unfold TextCompletion_defaults. rewrite T1, X1.
      repeat split.
  - apply (K (VList [])). reflexivity.
  - intros chat_history w1 w2.
    destruct (ChatCompletion_frame net chat_history a1 w) as (T1 & C1 & X1).
    destruct (ChatCompletion_frame net chat_history a2 w1) as (T2 & C2 & X2).
    fold w1 in T1, C1, X1. fold w2 in T2, C2, X2.
    split; [exact T1|]. split; [congruence|].
    destruct (validation chat_history) as [[]|e] eqn:V.
    + right. apply (K chat_history V).
    + left. exists e.
      assert (E1 : ChatCompletion net chat_history a1 w = (Raise e, w)).
      { rewrite ChatCompletion_run, V. reflexivity. }
      assert (W1 : w1 = w). { unfold w1. rewrite E1. reflexivity. }
      assert (E2 : ChatCompletion net chat_history a2 w1 = (Raise e, w1)).
      { rewrite ChatCompletion_run, V. reflexivity. }
      split; [exact E1|]. split; [exact E2|].
      unfold w2. rewrite E2. exact W1.
Qed.

(** C8.  After any sequence of earlier calls on a fresh client, whatever
    [stop] values those calls passed, a call that omits [stop] serialises
    ["stop"] as the empty list in the body it posts.  A [TextCompletion]
    call posts such a body every time and a [ChatCompletion] call on the
    empty history does too; on any other history [ChatCompletion] either
    raised in its loop, before a body is built, or posted such a body.  The
    two default lists are empty before and after: the methods read them and
    never write them. *)
Theorem C8_stop_default_empty :
  forall (net : transport) (token : pyval) (cs : list call) (c : call),
    call_stop c = None ->
    let w := exec net cs (GentaAPI_init token) in
    ((exists e, fails_unsent (do_call net c) w e) \/
     exists rq, posts (do_call net c) w rq /\
                parameter "stop" rq = Some (VList [])) /\
    (forall text a, c = CallText text a ->
                    exists rq, posts (do_call net c) w rq /\
                               parameter "stop" rq = Some (VList [])) /\
    (forall a, c = CallChat (VList []) a ->
               exists rq, posts (do_call net c) w rq /\
                          parameter "stop" rq = Some (VList [])) /\
    ChatCompletion_stop_default (snd (do_call net c w)) = [] /\
    TextCompletion_stop_default (snd (do_call net c w)) = [].
Proof.
  intros net token cs c S w.
  destruct (reachable_objects net token cs) as (_ & DC & DT).
  fold w in DC, DT.
  destruct (do_call_frame net c w) as (_ & FC & FT).
  assert (KC : forall chat_history a,
             stop a = None ->
             parameter "stop" (ChatCompletion_request chat_history a w) =
               Some (VList [])).
  { intros chat_history a Sa.
    unfold parameter, parameters_of, ChatCompletion_request.
    cbn. rewrite Sa, DC. reflexivity. }
  assert (KT : forall text a,
             stop a = None ->
             parameter "stop" (TextCompletion_request text a w) =
               Some (VList [])).
  { intros text a Sa.
    unfold parameter, parameters_of, TextCompletion_request.
    cbn. rewrite Sa, DT. reflexivity. }
  split; [|split; [|split; [|split; congruence]]].
  - destruct c as [chat_history a | text a]; cbn [do_call]; cbn in S.
    + destruct (ChatCompletion_fails_or_posts net chat_history a w) as [F | P];
        [left; exact F | right].
      eexists. split; [exact P | apply KC; exact S].
    + right. eexists. split; [apply TextCompletion_posts | apply KT; exact S].
  - intros text a ->. cbn in S. eexists.
    split; [apply TextCompletion_posts | apply KT; exact S].
  - intros a ->. cbn in S. eexists.
    split; [apply ChatCompletion_posts_nil | apply KC; exact S].
Qed.

Lemma C8_stop_default_empty_witness :
  let earlier :=
    [CallText (VStr "a") (all_kwargs
       {| model_name := VStr "m"; best_of := VInt 2;
          decoder_input_details := VBool false; details := VBool false;
          do_sample := VBool false; max_new_tokens := VInt 5;
          repetition_penalty := VNone; return_full_text := VBool true;
          seed := VInt 7; stop := VList [VStr "END"]; temperature := VNone;
          top_k := VInt 3; top_n_tokens := VInt 1; top_p := VNone;
          truncate := VInt 9; typical_p := VNone; watermark := VBool true |});
     CallChat (VList []) (only_stop (VList [VStr "STOP"]))] in
  let c := CallChat (VList []) no_kwargs in
  let w := exec mock_ok earlier (GentaAPI_init (VStr "your-token")) in
  call_stop c = None /\
  exists rq, posts (do_call mock_ok c) w rq /\
             parameter "stop" rq = Some (VList []).
Proof.
  intros earlier c w. split; [reflexivity|].
  destruct (C8_stop_default_empty mock_ok (VStr "your-token") earlier c eq_refl)
    as (_ & _ & K & _).
  exact (K no_kwargs eq_refl).
Defined.

(** C9.  A chat history that is a non-empty list, whatever its messages,
    makes [ChatCompletion] raise [TypeError] with nothing posted and the
    world as it was: the loop subscripts the list by ['role'].  The empty
    list passes the loop and is posted.  So a list reaches the transport
    exactly when it is empty. *)
Theorem C9_nonempty_history_TypeError :
  forall (net : transport) (a : call_args) (w : world),
    (forall m ms,
        fails_unsent (ChatCompletion net (VList (m :: ms)) a) w TypeError) /\
    (exists rq,
        posts (ChatCompletion net (VList []) a) w rq /\
        field "inputs" (req_json rq) = Some (VList []) /\
        fst (ChatCompletion net (VList []) a w) =
          passed_through (net (posted w) rq)) /\
    (forall l,
        (exists rq, posts (ChatCompletion net (VList l) a) w rq) <-> l = []).
Proof.
  intros net a w. split; [|split].
  - intros m ms. unfold fails_unsent. rewrite ChatCompletion_run. reflexivity.
  - exists (ChatCompletion_request (VList []) a w).
    split; [apply ChatCompletion_posts; reflexivity|].
    split; [reflexivity|]. rewrite ChatCompletion_run. reflexivity.
  - intros l. split.
    + intros (rq & P). apply ChatCompletion_posts_inv in P.
      destruct P as (V & _). rewrite validation_list in V.
      destruct l; [reflexivity | discriminate V].
    + intros ->. eexists. apply ChatCompletion_posts. reflexivity.
Qed.


(** * Further properties of the two methods *)

(** ** Which values the validation loop lets through *)

Lemma in_strs_spec (x : pyval) (l : list string) :
  in_strs x l = true <-> In x (map VStr l).
Proof.
  rewrite in_map_iff. destruct x; cbn [in_strs];
    try (split; [intros H; discriminate H | intros (y & E & _); discriminate E]).
  rewrite existsb_exists. split.
  - intros (y & I & E). apply String.eqb_eq in E. subst y. exists s. tauto.
  - intros (y & E & I). injection E as ->. exists s.
    split; [exact I | apply String.eqb_refl].
Qed.

Lemma record_post_neq (rq : request) (w : world) : record_post rq w <> w.
Proof.
  intros H. apply (f_equal posted) in H. cbn in H.
  symmetry in H. exact (app_one_neq _ _ H).
Qed.

Lemma fails_unsent_ChatCompletion (net : transport) (v : pyval) (a : call_args)
    (w : world) (e : exn) :
  fails_unsent (ChatCompletion net v a) w e <-> validation v = Raise e.
Proof.
  unfold fails_unsent. rewrite ChatCompletion_run.
  destruct (validation v) as [[]|e'].
  - split; [|intros H; discriminate H].
    intros H. exfalso. apply (f_equal snd) in H. cbn [snd] in H.
    exact (record_post_neq _ _ H).
  - split; intros H; [injection H as -> | injection H as ->]; reflexivity.
Qed.

Lemma posts_ChatCompletion (net : transport) (v : pyval) (a : call_args)
    (w : world) :
  (exists rq, posts (ChatCompletion net v a) w rq) <-> validation v = Ok tt.
Proof.
  split.
  - intros (rq & P). apply ChatCompletion_posts_inv in P. tauto.
  - intros V. eexists. apply ChatCompletion_posts. exact V.
Qed.

(** The loop's outcome by the shape of [chat_history]. *)
Lemma validation_dict (d : list (string * pyval)) :
  validation (VDict d) =
  match d with
  | [] => Ok tt
  | _ :: _ =>
      match dict_get "role" d with
      | Some x =>
          if in_strs x ["user"; "assistant"; "system"] then Ok tt
          else Raise (ValueError role_error)
      | None => Raise (KeyError "role")
      end
  end.
Proof.
  destruct d as [|kv d]; [reflexivity|].
  unfold validation, role_check_result, getitem_str. cbn [py_iter map].
  destruct (dict_get "role" (kv :: d)); reflexivity.
Qed.

Lemma validation_str (s : string) :
  validation (VStr s) = if String.eqb s "" then Ok tt else Raise TypeError.
Proof. destruct s; reflexivity. Qed.

Lemma validation_tuple (l : list pyval) :
  validation (VTuple l) = match l with [] => Ok tt | _ :: _ => Raise TypeError end.
Proof. destruct l; reflexivity. Qed.

(** X1.  Among the values the JSON encoder takes ([None], booleans,
    integers, floats, strings, lists, tuples, dicts with string keys),
    [ChatCompletion] reaches the transport exactly for these values of
    [chat_history]: the empty list, the empty tuple, the empty string, the
    empty dict, and a dict whose ['role'] entry is one of the three role
    strings. *)
Theorem X1_ChatCompletion_accepts_iff :
  forall (net : transport) (v : pyval) (a : call_args) (w : world),
    (exists rq, posts (ChatCompletion net v a) w rq) <->
    (v = VList [] \/ v = VTuple [] \/ v = VStr "" \/ v = VDict [] \/
     exists d r, v = VDict d /\ dict_get "role" d = Some (VStr r) /\
                 allowed_role r = true).
Proof.
  intros net v a w. rewrite posts_ChatCompletion. split.
  - intros V. destruct v as [ | b | n | f | s | l | l | d]; try discriminate V.
    + rewrite validation_str in V. destruct (String.eqb_spec s "") as [->|N];
        [tauto | discriminate V].
    + rewrite validation_list in V. destruct l; [tauto | discriminate V].
    + rewrite validation_tuple in V. destruct l; [tauto | discriminate V].
    + rewrite validation_dict in V. destruct d as [|kv d]; [tauto|].
      destruct (dict_get "role" (kv :: d)) as [x|] eqn:G; [|discriminate V].
      destruct x as [ | b | n | f | r | l | l | d']; try discriminate V.
      right. right. right. right. exists (kv :: d), r. split; [reflexivity|].
      split; [exact G|]. unfold allowed_role. cbn [in_strs] in V.
      destruct (existsb _ _); [reflexivity | discriminate V].
  - intros [-> | [-> | [-> | [-> | (d & r & -> & G & A)]]]]; try reflexivity.
    rewrite validation_dict. destruct d as [|kv d]; [reflexivity|].
    rewrite G. cbn [in_strs]. unfold allowed_role in A. rewrite A. reflexivity.
Qed.

(** X2.  [ChatCompletion] raises its [ValueError] exactly when
    [chat_history] is a dict whose ['role'] entry is present and is not one
    of the three role strings; then nothing is posted.  No list raises it. *)
Theorem X2_ChatCompletion_ValueError_iff :
  forall (net : transport) (v : pyval) (a : call_args) (w : world) (msg : string),
    fails_unsent (ChatCompletion net v a) w (ValueError msg) <->
    (msg = role_error /\
     exists d x, v = VDict d /\ dict_get "role" d = Some x /\
                 ~ In x role_literals).
Proof.
  intros net v a w msg. rewrite fails_unsent_ChatCompletion. split.
  - intros V. destruct v as [ | b | n | f | s | l | l | d]; try discriminate V.
    + rewrite validation_str in V. destruct (String.eqb s ""); discriminate V.
    + rewrite validation_list in V. destruct l; discriminate V.
    + rewrite validation_tuple in V. destruct l; discriminate V.
    + rewrite validation_dict in V. destruct d as [|kv d]; [discriminate V|].
      destruct (dict_get "role" (kv :: d)) as [x|] eqn:G; [|discriminate V].
      destruct (in_strs x _) eqn:I; [discriminate V|].
      injection V as <-. split; [reflexivity|].
      exists (kv :: d), x. split; [reflexivity|]. split; [exact G|].
      intros H. apply (in_strs_spec x ["user"; "assistant"; "system"]) in H.
      rewrite H in I. discriminate I.
  - intros (-> & d & x & -> & G & N). rewrite validation_dict.
    destruct d as [|kv d]; [discriminate G|]. rewrite G.
    destruct (in_strs x _) eqn:I; [|reflexivity].
    exfalso. apply N. apply (in_strs_spec x ["user"; "assistant"; "system"]).
    exact I.
Qed.

(** X3.  [ChatCompletion] raises [KeyError] exactly when [chat_history] is
    a non-empty dict with no ['role'] key; the key reported is ['role'] and
    nothing is posted. *)
Theorem X3_ChatCompletion_KeyError_iff :
  forall (net : transport) (v : pyval) (a : call_args) (w : world) (k : string),
    fails_unsent (ChatCompletion net v a) w (KeyError k) <->
    (k = "role" /\
     exists d, v = VDict d /\ d <> [] /\ dict_get "role" d = None).
Proof.
  intros net v a w k. rewrite fails_unsent_ChatCompletion. split.
  - intros V. destruct v as [ | b | n | f | s | l | l | d]; try discriminate V.
    + rewrite validation_str in V. destruct (String.eqb s ""); discriminate V.
    + rewrite validation_list in V. destruct l; discriminate V.
    + rewrite validation_tuple in V. destruct l; discriminate V.
    + rewrite validation_dict in V. destruct d as [|kv d]; [discriminate V|].
      destruct (dict_get "role" (kv :: d)) as [x|] eqn:G.
      * destruct (in_strs x _); discriminate V.
      * injection V as <-. split; [reflexivity|].
        exists (kv :: d). split; [reflexivity|]. split; [|exact G].
        intros H. discriminate H.
  - intros (-> & d & -> & N & G). rewrite validation_dict.
    destruct d as [|kv d]; [contradiction|]. rewrite G. reflexivity.
Qed.

(** X4.  Among the values the JSON encoder takes, [ChatCompletion] raises
    [TypeError] before posting exactly when [chat_history] is a non-empty
    list, a non-empty tuple, a non-empty string, or a value that cannot be
    iterated ([None], a bool, an int, a float). *)
Theorem X4_ChatCompletion_TypeError_iff :
  forall (net : transport) (v : pyval) (a : call_args) (w : world),
    fails_unsent (ChatCompletion net v a) w TypeError <->
    ((exists m ms, v = VList (m :: ms)) \/
     (exists m ms, v = VTuple (m :: ms)) \/
     (exists s, v = VStr s /\ s <> "") \/
     v = VNone \/ (exists b, v = VBool b) \/ (exists n, v = VInt n) \/
     (exists f, v = VFloat f)).
Proof.
  intros net v a w. rewrite fails_unsent_ChatCompletion. split.
  - intros V. destruct v as [ | b | n | f | s | l | l | d].
    + tauto.
    + do 4 right. left. exists b. reflexivity.
    + do 5 right. left. exists n. reflexivity.
    + do 6 right. exists f. reflexivity.
    + do 2 right. left. exists s. split; [reflexivity|]. intros ->.
      discriminate V.
    + left. destruct l as [|m ms]; [discriminate V|]. exists m, ms. reflexivity.
    + right. left. destruct l as [|m ms]; [discriminate V|].
      exists m, ms. reflexivity.
    + exfalso. rewrite validation_dict in V. destruct d as [|kv d];
        [discriminate V|].
      destruct (dict_get "role" (kv :: d)) as [x|]; [|discriminate V].
      destruct (in_strs x _); discriminate V.
  - intros [(m & ms & ->) | [(m & ms & ->) | [(s & -> & N) |
            [-> | [(b & ->) | [(n & ->) | (f & ->)]]]]]];
      try reflexivity.
    rewrite validation_str. destruct (String.eqb_spec s ""); [contradiction|].
    reflexivity.
Qed.

(** ** Where a result comes from *)

Lemma passed_through_Ok (net : transport) (w : world) (rq : request)
    (body : pyval) (status : Z) :
  passed_through (net (posted w) rq) = Ok (body, status) <->
  exchange_returns net w rq body status.
Proof.
  unfold passed_through, exchange_returns.
  destruct (net (posted w) rq) as [r|e'].
  - destruct (resp_json r) as [b|] eqn:J.
    + split.
      * intros H. injection H as -> <-. exists r. tauto.
      * intros (r' & E & J' & S'). injection E as <-.
        rewrite J in J'. injection J' as ->. rewrite S'. reflexivity.
    + split; [intros H; discriminate H|].
      intros (r' & E & J' & _). injection E as <-. rewrite J in J'.
      discriminate J'.
  - split; [intros H; discriminate H | intros (r' & E & _); discriminate E].
Qed.

Lemma passed_through_Raise (net : transport) (w : world) (rq : request)
    (e : exn) :
  passed_through (net (posted w) rq) = Raise e <-> exchange_raises net w rq e.
Proof.
  unfold passed_through, exchange_raises.
  destruct (net (posted w) rq) as [r|e'].
  - destruct (resp_json r) as [b|] eqn:J.
    + split; [intros H; discriminate H|].
      intros [H | (r' & E & J' & _)]; [discriminate H|].
      injection E as <-. rewrite J in J'. discriminate J'.
    + split.
      * intros H. injection H as <-. right. exists r. tauto.
      * intros [H | (r' & _ & _ & ->)]; [discriminate H | reflexivity].
  - split.
    + intros H. injection H as ->. left. reflexivity.
    + intros [H | (r' & E & _)]; [injection H as ->; reflexivity | discriminate E].
Qed.

(** X5.  Neither method makes up a result: a call returns the pair
    [(body, status)] exactly when it posted a request and the transport
    answered that request with a JSON body [body] and status [status]. *)
Theorem X5_returns_iff_transport_answered :
  forall (net : transport) (w : world) (a : call_args) (body : pyval)
         (status : Z),
    (forall text,
        fst (TextCompletion net text a w) = Ok (body, status) <->
        exists rq, posts (TextCompletion net text a) w rq /\
                   exchange_returns net w rq body status) /\
    (forall chat_history,
        fst (ChatCompletion net chat_history a w) = Ok (body, status) <->
        exists rq, posts (ChatCompletion net chat_history a) w rq /\
                   exchange_returns net w rq body status).
Proof.
  intros net w a body status. split.
  - intros text. rewrite TextCompletion_run. cbn [fst].
    rewrite passed_through_Ok. split.
    + intros H. eexists. split; [apply TextCompletion_posts | exact H].
    + intros (rq & P & H). apply TextCompletion_posts_inv in P. subst rq.
      exact H.
  - intros chat_history. split.
    + rewrite ChatCompletion_run.
      destruct (validation chat_history) as [[]|e] eqn:V; cbn [fst];
        [|intros H; discriminate H].
      rewrite passed_through_Ok. intros H.
      eexists. split; [apply ChatCompletion_posts; exact V | exact H].
    + intros (rq & P & H). apply ChatCompletion_posts_inv in P.
      destruct P as (V & ->). rewrite ChatCompletion_run, V. cbn [fst].
      apply passed_through_Ok. exact H.
Qed.

(** X6.  Every exception of [TextCompletion] comes out of the exchange: the
    call raises [e] exactly when the transport failed with [e] on the posted
    request, or answered it with a body that is not JSON ([e] is then the
    decoding error, whatever the status code). *)
Theorem X6_TextCompletion_raises_iff :
  forall (net : transport) (text : pyval) (a : call_args) (w : world) (e : exn),
    fst (TextCompletion net text a w) = Raise e <->
    exists rq, posts (TextCompletion net text a) w rq /\
               exchange_raises net w rq e.
Proof.
  intros net text a w e. rewrite TextCompletion_run. cbn [fst].
  rewrite passed_through_Raise. split.
  - intros H. eexists. split; [apply TextCompletion_posts | exact H].
  - intros (rq & P & H). apply TextCompletion_posts_inv in P. subst rq. exact H.
Qed.

(** X7.  An exception of [ChatCompletion] is either raised by the loop,
    with nothing posted and the world unchanged, or comes out of the
    exchange about the one request posted (transport failure, or a body that
    is not JSON). *)
Theorem X7_ChatCompletion_raises_iff :
  forall (net : transport) (chat_history : pyval) (a : call_args) (w : world)
         (e : exn),
    fst (ChatCompletion net chat_history a w) = Raise e <->
    (fails_unsent (ChatCompletion net chat_history a) w e \/
     exists rq, posts (ChatCompletion net chat_history a) w rq /\
                exchange_raises net w rq e).
Proof.
  intros net chat_history a w e. split.
  - intros H. rewrite ChatCompletion_run in H.
    destruct (validation chat_history) as [[]|e'] eqn:V; cbn [fst] in H.
    + right. eexists. split; [apply ChatCompletion_posts; exact V|].
      apply passed_through_Raise. exact H.
    + injection H as ->. left. apply fails_unsent_ChatCompletion. exact V.
  - intros [F | (rq & P & H)].
    + rewrite F. reflexivity.
    + apply ChatCompletion_posts_inv in P. destruct P as (V & ->).
      rewrite ChatCompletion_run, V. cbn [fst].
      apply passed_through_Raise. exact H.
Qed.

(** ** The record of posted requests over a sequence of calls *)

Lemma do_call_posted (net : transport) (c : call) (w : world) :
  posted (snd (do_call net c w)) = posted w ++ call_requests c w.
Proof.
  destruct c as [chat_history a | text a]; cbn [do_call call_requests].
  - rewrite ChatCompletion_run. destruct (validation chat_history); cbn [snd].
    + apply posted_record_post.
    + symmetry. apply app_nil_r.
  - rewrite TextCompletion_run. apply posted_record_post.
Qed.

Lemma skipn_length_app (l tail : list request) :
  skipn (length l) (l ++ tail) = tail.
Proof. induction l as [|x l IH]; [reflexivity | exact IH]. Qed.

Lemma sent_by_call_requests (net : transport) (c : call) (w : world) :
  sent_by net c w = call_requests c w.
Proof. unfold sent_by. rewrite do_call_posted. apply skipn_length_app. Qed.

Lemma call_requests_same_objects (c : call) (w w' : world) :
  same_objects w w' -> call_requests c w' = call_requests c w.
Proof.
  intros (T & DC & DT).
  destruct c as [chat_history a | text a]; cbn [call_requests].
  - destruct (validation chat_history); [|reflexivity].
    unfold ChatCompletion_request, ChatCompletion_defaults.
    rewrite T, DC. reflexivity.
  - unfold TextCompletion_request, TextCompletion_defaults.
    rewrite T, DT. reflexivity.
Qed.

Lemma exec_posted (net : transport) (cs : list call) (w : world) :
  posted (exec net cs w) = posted w ++ flat_map (fun c => call_requests c w) cs.
Proof.
  revert w. induction cs as [|c rest IH]; intros w; cbn [exec flat_map].
  - symmetry. apply app_nil_r.
  - rewrite IH, do_call_posted, <- app_assoc. f_equal. f_equal.
    apply flat_map_ext. intros c'.
    apply call_requests_same_objects. apply do_call_frame.
Qed.

Lemma call_requests_length (c : call) (w : world) :
  (length (call_requests c w) <= 1)%nat /\
  (is_text_call c = true -> length (call_requests c w) = 1%nat).
Proof.
  destruct c as [chat_history a | text a]; cbn [call_requests is_text_call].
  - split; [|intros H; discriminate H].
    destruct (validation chat_history); cbn; lia.
  - split; [cbn; lia | reflexivity].
Qed.

(** X8.  The record of posted requests only grows, and by at most one
    request per call (nothing is retried, nothing posted is withdrawn): after
    any sequence of calls the record is the earlier record followed by at most
    as many requests as there were calls, and by exactly as many when all
    the calls are [TextCompletion] calls. *)
Theorem X8_posted_append_only :
  forall (net : transport) (cs : list call) (w : world),
    exists tail,
      posted (exec net cs w) = posted w ++ tail /\
      (length tail <= length cs)%nat /\
      (forallb is_text_call cs = true -> length tail = length cs).
Proof.
  intros net cs w. exists (flat_map (fun c => call_requests c w) cs).
  split; [apply exec_posted|].
  induction cs as [|c rest (L & E)]; cbn [flat_map forallb length].
  - split; [lia | reflexivity].
  - rewrite length_app. destruct (call_requests_length c w) as (L1 & E1).
    split; [lia|]. intros H. apply andb_true_iff in H. destruct H as (H1 & H2).
    rewrite (E1 H1), (E H2). reflexivity.
Qed.

(** X9.  Calls do not influence one another's requests: the requests a
    sequence of calls posts are, in order, the requests each call posts when
    made alone in the starting world, whatever the transport answers along
    the way (and whatever transport the lone call meets). *)
Theorem X9_requests_independent_of_history :
  forall (net net' : transport) (cs : list call) (w : world),
    posted (exec net cs w) =
    posted w ++ flat_map (fun c => sent_by net' c w) cs.
Proof.
  intros net net' cs w. rewrite exec_posted. f_equal.
  apply flat_map_ext. intros c. symmetry. apply sent_by_call_requests.
Qed.

Lemma call_requests_well_formed (token : pyval) (c : call) :
  Forall (well_formed_request token) (call_requests c (GentaAPI_init token)).
Proof.
  destruct c as [chat_history a | text a]; cbn [call_requests].
  - destruct (validation chat_history); [|constructor].
    constructor; [|constructor].
    unfold well_formed_request. cbn.
    repeat split; [left; reflexivity|].
    eexists. split; reflexivity.
  - constructor; [|constructor].
    unfold well_formed_request. cbn.
    repeat split; [right; reflexivity|].
    eexists. split; reflexivity.
Qed.

(** X10.  Every request a client ever posts has the same shape: it goes to
    one of the two endpoints with the one header [Content-Type:
    application/json]; its body has the four fields token, inputs,
    model_name, parameters in this order; the token is the value given to the
    constructor, whatever that value is; the parameters object has the
    sixteen generation parameters in the order of the table. *)
Theorem X10_posted_requests_well_formed :
  forall (net : transport) (token : pyval) (cs : list call),
    Forall (well_formed_request token)
           (posted (exec net cs (GentaAPI_init token))).
Proof.
  intros net token cs. rewrite exec_posted. cbn [posted GentaAPI_init app].
  induction cs as [|c rest IH]; cbn [flat_map]; [constructor|].
  apply Forall_app. split; [apply call_requests_well_formed | exact IH].
Qed.

(** X11.  [TextCompletion] binds its parameters as [ChatCompletion] does:
    after any sequence of calls on a fresh client, a [TextCompletion] call
    posts a body whose model name and sixteen parameters are the caller's
    values where passed and the signature's defaults elsewhere ([stop]
    defaulting to the empty list). *)
Theorem X11_TextCompletion_parameters_defaulted :
  forall (net : transport) (token : pyval) (cs : list call) (text : pyval)
         (a : call_args),
    exists rq,
      posts (TextCompletion net text a) (exec net cs (GentaAPI_init token)) rq /\
      carries (resolve a spec_defaults) rq.
Proof.
  intros net token cs text a.
  eexists. split; [apply TextCompletion_posts|].
  unfold carries, TextCompletion_request, parameters_of. cbn [req_json].
  rewrite reachable_TextCompletion_defaults.
  split; [reflexivity|].
  exists (TextCompletion_parameters (resolve a spec_defaults)). repeat split.
Qed.

Ltac by_parameter_name k H :=
  repeat (destruct (String.eqb k _);
          [ cbn in H |- *; rewrite H; reflexivity | ]);
  discriminate H.

Lemma passed_TextCompletion_parameters (k : string) (a : call_args)
    (d : kwargs pyval) (x : pyval) :
  passed k a = Some x ->
  field k (TextCompletion_parameters (resolve a d)) = Some x.
Proof.
  intros H. unfold passed in H. cbn [find fst] in H.
  unfold TextCompletion_parameters. cbn [field dict_get resolve best_of
    decoder_input_details details do_sample max_new_tokens repetition_penalty
    return_full_text seed stop temperature top_k top_n_tokens top_p truncate
    typical_p watermark].
  by_parameter_name k H.
Qed.

Lemma passed_ChatCompletion_parameters (k : string) (a : call_args)
    (d : kwargs pyval) (x : pyval) :
  passed k a = Some x ->
  field k (ChatCompletion_parameters (resolve a d)) = Some x.
Proof.
  intros H. unfold passed in H. cbn [find fst] in H.
  unfold ChatCompletion_parameters. cbn [field dict_get resolve best_of
    decoder_input_details details do_sample max_new_tokens repetition_penalty
    return_full_text seed stop temperature top_k top_n_tokens top_p truncate
    typical_p watermark].
  by_parameter_name k H.
Qed.

(** X12.  A value passed for a generation parameter is what the body
    carries under that name, whatever else is passed or omitted and whatever
    the defaults are; this holds of [None] too, so passing [None] does not
    bring the default back.  [TextCompletion] posts such a body on every
    call, [ChatCompletion] on the empty history; on any other history
    [ChatCompletion] either raised in its loop or posted such a body. *)
Theorem X12_passed_value_carried :
  forall (net : transport) (w : world) (a : call_args) (k : string) (x : pyval),
    passed k a = Some x ->
    (forall text,
        exists rq, posts (TextCompletion net text a) w rq /\
                   parameter k rq = Some x) /\
    (exists rq, posts (ChatCompletion net (VList []) a) w rq /\
                parameter k rq = Some x) /\
    (forall chat_history,
        (exists e, fails_unsent (ChatCompletion net chat_history a) w e) \/
        exists rq, posts (ChatCompletion net chat_history a) w rq /\
                   parameter k rq = Some x).
Proof.
  intros net w a k x H.
  assert (K : forall chat_history,
             parameter k (ChatCompletion_request chat_history a w) = Some x).
  { intros chat_history.
    unfold parameter, parameters_of, ChatCompletion_request. cbn [req_json].
    cbn [ChatCompletion_data field dict_get String.eqb Ascii.eqb Bool.eqb].
    apply passed_ChatCompletion_parameters. exact H. }
  split; [|split].
  - intros text. eexists. split; [apply TextCompletion_posts|].
    unfold parameter, parameters_of, TextCompletion_request. cbn [req_json].
    cbn [TextCompletion_data field dict_get String.eqb Ascii.eqb Bool.eqb].
    apply passed_TextCompletion_parameters. exact H.
  - eexists. split; [apply ChatCompletion_posts_nil | apply K].
  - intros chat_history.
    destruct (ChatCompletion_fails_or_posts net chat_history a w) as [F | P];
      [left; exact F | right].
    eexists. split; [exact P | apply K].
Qed.

Lemma X12_passed_value_carried_witness :
  let w := GentaAPI_init (VStr "your-token") in
  passed "stop" (only_stop VNone) = Some VNone /\
  (exists rq, posts (TextCompletion mock_ok (VStr "Hello") (only_stop VNone)) w rq /\
              parameter "stop" rq = Some VNone) /\
  (exists rq, posts (ChatCompletion mock_ok (VList []) (only_stop VNone)) w rq /\
              parameter "stop" rq = Some VNone).
Proof.
  intros w. split; [reflexivity|].
  destruct (X12_passed_value_carried mock_ok w (only_stop VNone) "stop" VNone
              eq_refl) as (T & C & _).
  split; [exact (T (VStr "Hello")) | exact C].
Defined.

(** X13.  On one client the two methods build the same body around their
    input: after any sequence of calls on a fresh client, a [ChatCompletion]
    call and a [TextCompletion] call given the same keyword arguments post
    bodies that carry their own input under ["inputs"] and are equal in every
    other field, with the same headers; only the endpoint differs. *)
Theorem X13_bodies_agree_apart_from_inputs :
  forall (net : transport) (token : pyval) (cs : list call)
         (chat_history text : pyval) (a : call_args) (rq rq' : request),
    let w := exec net cs (GentaAPI_init token) in
    posts (ChatCompletion net chat_history a) w rq ->
    posts (TextCompletion net text a) w rq' ->
    field "inputs" (req_json rq) = Some chat_history /\
    field "inputs" (req_json rq') = Some text /\
    without "inputs" (req_json rq) = without "inputs" (req_json rq') /\
    req_headers rq = req_headers rq' /\
    req_url rq <> req_url rq'.
Proof.
  intros net token cs chat_history text a rq rq' w P P'.
  apply ChatCompletion_posts_inv in P. destruct P as (_ & ->).
  apply TextCompletion_posts_inv in P'. subst rq'.
  unfold ChatCompletion_request, TextCompletion_request. cbn [req_json req_headers req_url].
  subst w. rewrite reachable_ChatCompletion_defaults, reachable_TextCompletion_defaults.
  repeat split. intros H. discriminate H.
Qed.

Lemma X13_bodies_agree_apart_from_inputs_witness :
  let w := GentaAPI_init (VStr "your-token") in
  let rq := ChatCompletion_request (VList []) no_kwargs w in
  let rq' := TextCompletion_request (VStr "Hello") no_kwargs w in
  posts (ChatCompletion mock_ok (VList []) no_kwargs) (exec mock_ok [] w) rq /\
  posts (TextCompletion mock_ok (VStr "Hello") no_kwargs) (exec mock_ok [] w) rq' /\
  (field "inputs" (req_json rq) = Some (VList []) /\
   field "inputs" (req_json rq') = Some (VStr "Hello") /\
   without "inputs" (req_json rq) = without "inputs" (req_json rq') /\
   req_headers rq = req_headers rq' /\
   req_url rq <> req_url rq').
Proof.
  intros w rq rq'. split; [reflexivity|]. split; [reflexivity|].
  apply (X13_bodies_agree_apart_from_inputs mock_ok (VStr "your-token") []
           (VList []) (VStr "Hello") no_kwargs rq rq'); reflexivity.
Defined.

Lemma exec_app (net : transport) (cs1 cs2 : list call) (w : world) :
  exec net (cs1 ++ cs2) w = exec net cs2 (exec net cs1 w).
Proof.
  revert w. induction cs1 as [|c rest IH]; intros w; [reflexivity|].
  cbn [app exec]. apply IH.
Qed.

(** X14.  A [ChatCompletion] call that the loop rejects leaves no trace:
    wherever it stands in a sequence of calls, the world after the sequence
    (token, defaults and record of posted requests) is the one reached
    without it, so the calls after it meet the transport as if it had not been
    made. *)
Theorem X14_rejected_call_leaves_no_trace :
  forall (net : transport) (chat_history : pyval) (a : call_args)
         (w0 : world) (e : exn),
    fails_unsent (ChatCompletion net chat_history a) w0 e ->
    forall (cs1 cs2 : list call) (w : world),
      exec net (cs1 ++ CallChat chat_history a :: cs2) w =
      exec net (cs1 ++ cs2) w.
Proof.
  intros net chat_history a w0 e F cs1 cs2 w.
  apply fails_unsent_ChatCompletion in F.
  rewrite !exec_app. cbn [exec do_call].
  rewrite ChatCompletion_run, F. reflexivity.
Qed.

Lemma X14_rejected_call_leaves_no_trace_witness :
  let w := GentaAPI_init (VStr "your-token") in
  let before := [CallText (VStr "a") no_kwargs] in
  let after := [CallText (VStr "b") no_kwargs] in
  fails_unsent (ChatCompletion mock_ok docstring_history no_kwargs) w TypeError /\
  exec mock_ok (before ++ CallChat docstring_history no_kwargs :: after) w =
  exec mock_ok (before ++ after) w.
Proof.
  intros w before after. split; [reflexivity|].
  apply (X14_rejected_call_leaves_no_trace mock_ok docstring_history no_kwargs
           w TypeError).
  reflexivity.
Defined.
